(** * usbtest.c: a CDC-ACM client over libusb, embedded in Rocq

    The program of [src/usbtest.c] is a straight line of libusb calls
    followed by an endless write/read loop.  It is embedded here as a
    computation in a small state-and-outcome monad:

    - every libusb call, every line printed, every [sleep] and the store
      [buf[len] = 0] is appended to a log, so that a run of [main] yields the
      sequence of observable events together with the way the run ended;
    - the USB stack and the device are an arbitrary [environment]: a function
      from the history of the run and the call being made to the values the
      call returns;
    - [exit], [goto out] and behaviour the C standard leaves undefined are
      outcomes of the monad; the endless loop is run with fuel, and running
      out of fuel is an outcome of its own ([Running]). *)

From Stdlib Require Import ZArith List String Ascii Bool Lia.
From Stdlib Require Import DecimalString.
Import ListNotations.
Open Scope Z_scope.

(** ** Constants *)

(** usbtest.c, lines 23-24. *)
Definition ACM_CTRL_DTR : Z := 0x01.
Definition ACM_CTRL_RTS : Z := 0x02.

(** usbtest.c, lines 31-32. *)
Definition ep_in_addr : Z := 0x82.
Definition ep_out_addr : Z := 0x02.

(** Values of libusb.h (libusb 1.0): [enum libusb_error] and
    [enum libusb_option]. *)
Definition LIBUSB_ERROR_TIMEOUT : Z := -7.
Definition LIBUSB_OPTION_WEAK_AUTHORITY : Z := 2.

(** Range of the C type [int] on the platforms libusb runs on. *)
Definition INT_MIN : Z := - 2 ^ 31.
Definition INT_MAX : Z := 2 ^ 31 - 1.

(** ** Events *)

(** A call of a libusb function with the arguments the program passes.  The
    device handle and the context are left out: the program has one of each.
    A [data] argument is the content of the buffer passed to the call; the
    null pointer of the line-state transfer is the empty list. *)
Inductive libusb_call : Type :=
| libusb_set_option (option_id : Z)
| libusb_init
| libusb_wrap_sys_device (sys_dev : Z)
| libusb_kernel_driver_active (interface_number : Z)
| libusb_detach_kernel_driver (interface_number : Z)
| libusb_claim_interface (interface_number : Z)
| libusb_control_transfer (bmRequestType bRequest wValue wIndex : Z)
    (data : list Z) (wLength : Z) (timeout : Z)
| libusb_bulk_transfer (endpoint : Z) (data : list Z) (length : Z)
    (timeout : Z)
| libusb_release_interface (interface_number : Z)
| libusb_close
| libusb_exit.

(** What a call hands back: its return value, and for a bulk transfer the
    value stored through the [actual_length] pointer and the bytes the device
    sent.  Calls that return nothing, or whose result the program drops,
    ignore it. *)
Record response : Type := mkResponse {
  ret : Z;
  transferred : Z;
  payload : list Z
}.

Inductive event : Type :=
| ECall (c : libusb_call) (r : response)
| EStdout (text : string)
| EStderr (text : string)
| EStore (index : Z)
| ESleep (seconds : Z).

(** The world outside the program.  [respond h c] is the answer to call [c]
    made after the events [h] (newest first); [stack_buf] is what the
    uninitialised array [buf] happens to hold when [main] starts. *)
Record environment : Type := mkEnv {
  respond : list event -> libusb_call -> response;
  libusb_error_name : Z -> string;
  stack_buf : list Z
}.

(** ** Program state *)

(** The global [devh] ([true]: not the null pointer), the locals of [main]
    that are read after they are written, and the log (newest first). *)
Record state : Type := mkState {
  devh : bool;
  fd : Z;
  rc : Z;
  buf : list Z;
  len : Z;
  log : list event
}.

Definition initial_state (env : environment) : state :=
  {| devh := false; fd := 0; rc := 0; buf := stack_buf env; len := 0;
     log := [] |}.

(** ** The monad *)

Inductive result (A : Type) : Type :=
| Normal (a : A)          (* the statement ran to its end *)
| Goto_out                (* [goto out] *)
| Exited (status : Z)     (* [exit(status)] *)
| Undefined               (* behaviour the C standard does not define *)
| Running.                (* the fuel of a loop ran out *)

Arguments Normal {A} a.
Arguments Goto_out {A}.
Arguments Exited {A} status.
Arguments Undefined {A}.
Arguments Running {A}.

Definition M (A : Type) : Type := environment -> state -> result A * state.

Definition mret {A} (a : A) : M A := fun _ s => (Normal a, s).

Definition bind {A B} (m : M A) (k : A -> M B) : M B :=
  fun env s =>
    match m env s with
    | (Normal a, s') => k a env s'
    | (Goto_out, s') => (Goto_out, s')
    | (Exited n, s') => (Exited n, s')
    | (Undefined, s') => (Undefined, s')
    | (Running, s') => (Running, s')
    end.

Notation "x <- m ;; k" := (bind m (fun x => k))
  (at level 61, m at next level, right associativity).
Notation "m ;; k" := (bind m (fun _ => k))
  (at level 61, right associativity).

Definition goto_out {A} : M A := fun _ s => (Goto_out, s).
Definition exit {A} (status : Z) : M A := fun _ s => (Exited status, s).
Definition undefined {A} : M A := fun _ s => (Undefined, s).

(** The label [out:] : a [goto out] inside [m] resumes after [m]. *)
Definition until_out (m : M unit) : M unit :=
  fun env s =>
    match m env s with
    | (Goto_out, s') => (Normal tt, s')
    | r => r
    end.

Definition emit (e : event) : M unit :=
  fun _ s => (Normal tt,
              {| devh := devh s; fd := fd s; rc := rc s; buf := buf s;
                 len := len s; log := e :: log s |}).

Definition get {A} (f : state -> A) : M A := fun _ s => (Normal (f s), s).

Definition set_devh (b : bool) : M unit :=
  fun _ s => (Normal tt,
              {| devh := b; fd := fd s; rc := rc s; buf := buf s;
                 len := len s; log := log s |}).
Definition set_fd (v : Z) : M unit :=
  fun _ s => (Normal tt,
              {| devh := devh s; fd := v; rc := rc s; buf := buf s;
                 len := len s; log := log s |}).
Definition set_rc (v : Z) : M unit :=
  fun _ s => (Normal tt,
              {| devh := devh s; fd := fd s; rc := v; buf := buf s;
                 len := len s; log := log s |}).
Definition set_buf (v : list Z) : M unit :=
  fun _ s => (Normal tt,
              {| devh := devh s; fd := fd s; rc := rc s; buf := v;
                 len := len s; log := log s |}).
Definition set_len (v : Z) : M unit :=
  fun _ s => (Normal tt,
              {| devh := devh s; fd := fd s; rc := rc s; buf := buf s;
                 len := v; log := log s |}).

(** A libusb call: ask the environment, log the call with its answer. *)
Definition call (c : libusb_call) : M response :=
  fun env s =>
    let r := respond env (log s) c in
    (Normal r,
     {| devh := devh s; fd := fd s; rc := rc s; buf := buf s;
        len := len s; log := ECall c r :: log s |}).

Definition error_name (code : Z) : M string :=
  fun env s => (Normal (libusb_error_name env code), s).

(** ** C library *)

Definition nl : string := String (ascii_of_nat 10) EmptyString.
Definition dquote : string := String (ascii_of_nat 34) EmptyString.

(** [%d] of printf. *)
Definition string_of_Z (z : Z) : string := NilEmpty.string_of_int (Z.to_int z).

(** [%s] of printf on a byte array: the bytes before the first zero byte.
    Reading on past the end of an array without a zero byte is not
    modelled: the string then ends with the array. *)
Fixpoint c_string (bytes : list Z) : string :=
  match bytes with
  | [] => EmptyString
  | b :: rest =>
      if b =? 0 then EmptyString
      else String (ascii_of_N (Z.to_N b)) (c_string rest)
  end.

Definition printf (text : string) : M unit := emit (EStdout text).
Definition fprintf_stderr (text : string) : M unit := emit (EStderr text).
Definition sleep (seconds : Z) : M unit := emit (ESleep seconds).

Definition isspace (c : ascii) : bool :=
  let n := nat_of_ascii c in
  (Nat.eqb n 32 || (Nat.leb 9 n && Nat.leb n 13))%bool.

Definition isdigit (c : ascii) : bool :=
  let n := nat_of_ascii c in (Nat.leb 48 n && Nat.leb n 57)%bool.

Fixpoint skip_space (s : string) : string :=
  match s with
  | String c rest => if isspace c then skip_space rest else s
  | EmptyString => s
  end.

(** The value of the longest prefix of decimal digits, [acc] being the value
    read so far. *)
Fixpoint scan_digits (s : string) (acc : Z) : Z :=
  match s with
  | String c rest =>
      if isdigit c
      then scan_digits rest (10 * acc + (Z.of_nat (nat_of_ascii c) - 48))
      else acc
  | EmptyString => acc
  end.

Definition starts_with_digit (s : string) : bool :=
  match s with
  | String c _ => isdigit c
  | EmptyString => false
  end.

(** [sscanf(s, "%d", &v)]: the return value ([-1] for EOF: the input ends
    before anything is converted; [0]: the input does not start a number;
    [1]: one conversion) and the integer read. *)
Definition sscanf_d (s : string) : Z * option Z :=
  match skip_space s with
  | EmptyString => (-1, None)
  | String c rest =>
      if Ascii.eqb c "-"%char then
        if starts_with_digit rest then (1, Some (- scan_digits rest 0))
        else (0, None)
      else if Ascii.eqb c "+"%char then
        if starts_with_digit rest then (1, Some (scan_digits rest 0))
        else (0, None)
      else if isdigit c then (1, Some (scan_digits (String c rest) 0))
      else (0, None)
  end.

(** ** Arrays and loops *)

(** [a[i] = v] for an index inside the array. *)
Fixpoint list_set (a : list Z) (i : nat) (v : Z) : list Z :=
  match a, i with
  | [], _ => []
  | _ :: rest, O => v :: rest
  | x :: rest, S i' => x :: list_set rest i' v
  end.

(** The bytes [src] written at the start of the array [dst]. *)
Definition overwrite (dst src : list Z) : list Z :=
  src ++ skipn (List.length src) dst.

(** [unsigned char buf[65]], usbtest.c line 142. *)
Definition sizeof_buf : Z := 65.

(** [buf[index] = v].  The index is logged.  A store outside the array has no
    meaning in C; the model leaves the array as it is and goes on with the
    control flow of the source, so that the index of every iteration can be
    observed. *)
Definition store_buf (index v : Z) : M unit :=
  emit (EStore index);;
  b <- get buf;;
  if ((0 <=? index) && (index <? sizeof_buf))%bool
  then set_buf (list_set b (Z.to_nat index) v)
  else mret tt.

(** [while (cond) body], at most [fuel] rounds. *)
Fixpoint while (fuel : nat) (cond : state -> bool) (body : M unit) : M unit :=
  c <- get cond;;
  if c then
    match fuel with
    | O => fun _ s => (Running, s)
    | S fuel' => body;; while fuel' cond body
    end
  else mret tt.

(** [for (int i = lo; i < hi; i++) body], the body not assigning [i]. *)
Fixpoint for_upto (count : nat) (i : Z) (body : Z -> M unit) : M unit :=
  match count with
  | O => mret tt
  | S count' => body i;; for_upto count' (i + 1) body
  end.

Definition for_range (lo hi : Z) (body : Z -> M unit) : M unit :=
  for_upto (Z.to_nat (hi - lo)) lo body.

(** ** The program *)

(** [libusb_bulk_transfer(devh, endpoint, data, length, &actual_length,
    timeout)]: the return value, the content of [data] after the call and
    the value of [actual_length].  Bit 7 of the endpoint address is the
    direction: towards the host the device's bytes are written over [data]
    (at most [length] of them) and the call is logged without data. *)
Definition bulk_transfer (endpoint : Z) (data : list Z) (length timeout : Z)
  : M (Z * list Z * Z) :=
  if Z.testbit endpoint 7 then
    r <- call (libusb_bulk_transfer endpoint [] length timeout);;
    mret (ret r, overwrite data (firstn (Z.to_nat length) (payload r)),
          transferred r)
  else
    r <- call (libusb_bulk_transfer endpoint data length timeout);;
    mret (ret r, data, transferred r).

(** usbtest.c, lines 34-44. *)
Definition write_char (c : Z) : M unit :=
  x <- bulk_transfer ep_out_addr [c] 1 0;;
  let '(r, _, _) := x in
  if r <? 0
  then fprintf_stderr ("Error while sending char" ++ nl)
  else mret tt.

(** usbtest.c, lines 46-63; the result is the return value and the content
    of [data] after the call. *)
Definition read_chars (data : list Z) (size : Z) : M (Z * list Z) :=
  x <- bulk_transfer ep_in_addr data size 1000;;
  let '(r, data', actual_length) := x in
  if r =? LIBUSB_ERROR_TIMEOUT then
    printf ("timeout (" ++ string_of_Z actual_length ++ ")" ++ nl);;
    mret (-1, data')
  else if r <? 0 then
    fprintf_stderr ("Error while waiting for char" ++ nl);;
    mret (-1, data')
  else mret (actual_length, data').

(** [rc = f(...)] for a libusb function [f]. *)
Definition assign_rc (c : libusb_call) : M Z :=
  r <- call c;;
  set_rc (ret r);;
  mret (ret r).

(** [libusb_wrap_sys_device(context, fd, &devh)]: [devh] is set when the
    call succeeds. *)
Definition wrap_sys_device (sys_dev : Z) : M Z :=
  r <- assign_rc (libusb_wrap_sys_device sys_dev);;
  (if 0 <=? r then set_devh true else mret tt);;
  mret r.

(** The line-coding record sent by [main], usbtest.c line 131. *)
Definition encoding : list Z := [0x00; 0xC2; 0x01; 0x00; 0x00; 0x00; 0x08].

Definition sizeof_encoding : Z := Z.of_nat (List.length encoding).

(** The body of the [while (1)] loop, usbtest.c lines 146-150. *)
Definition loop_body : M unit :=
  write_char 116;;
  b <- get buf;;
  x <- read_chars b 64;;
  set_buf (snd x);;
  set_len (fst x);;
  l <- get len;;
  store_buf l 0;;
  b' <- get buf;;
  printf ("Received: " ++ dquote ++ c_string b' ++ dquote ++ nl);;
  sleep 1.

(** usbtest.c, lines 78-161: [main] from the first libusb call on.  The
    result is the value [main] returns. *)
Definition usb_session (fuel : nat) : M Z :=
  (* line 78 *)
  r <- assign_rc (libusb_set_option LIBUSB_OPTION_WEAK_AUTHORITY);;
  (if r <? 0 then
     name <- error_name r;;
     fprintf_stderr ("Error setting libusb option: " ++ name ++ nl);;
     exit 1
   else mret tt);;
  (* line 85 *)
  r <- assign_rc libusb_init;;
  (if r <? 0 then
     name <- error_name r;;
     fprintf_stderr ("Error initializing libusb: " ++ name ++ nl);;
     exit 1
   else mret tt);;
  until_out (
    (* line 92 *)
    f <- get fd;;
    r <- wrap_sys_device f;;
    (if r <? 0 then
       name <- error_name r;;
       fprintf_stderr ("Error wrapping file descriptor: " ++ name ++ nl);;
       goto_out
     else mret tt);;
    (* line 105 *)
    for_range 0 2 (fun if_num =>
      a <- call (libusb_kernel_driver_active if_num);;
      (if negb (ret a =? 0)
       then call (libusb_detach_kernel_driver if_num);; mret tt
       else mret tt);;
      r <- assign_rc (libusb_claim_interface if_num);;
      if r <? 0 then
        name <- error_name r;;
        fprintf_stderr ("Error claiming interface: " ++ name ++ nl);;
        goto_out
      else mret tt);;
    (* line 120 *)
    r <- assign_rc (libusb_control_transfer 0x21 0x22
                      (Z.lor ACM_CTRL_DTR ACM_CTRL_RTS) 0 [] 0 0);;
    (if r <? 0 then
       name <- error_name r;;
       fprintf_stderr ("Error during control transfer: " ++ name ++ nl);;
       goto_out
     else mret tt);;
    (* line 131 *)
    r <- assign_rc (libusb_control_transfer 0x21 0x20 0 0 encoding
                      sizeof_encoding 0);;
    (if r <? 0 then
       name <- error_name r;;
       fprintf_stderr ("Error during control transfer: " ++ name ++ nl);;
       goto_out
     else mret tt);;
    (* line 145 *)
    while fuel (fun _ => true) loop_body;;
    (* line 153 *)
    call (libusb_release_interface 0);;
    mret tt);;
  (* line 155, out: *)
  d <- get devh;;
  (if d : bool then call libusb_close;; mret tt else mret tt);;
  call libusb_exit;;
  get rc.

(** usbtest.c, lines 65-162.  [argv] holds the [argc] arguments and
    [argv[argc]] is a null pointer.  Passing a null pointer to [sscanf] or
    for [%s], and a number that does not fit [int], are undefined. *)
Definition main (fuel : nat) (argv : list string) : M Z :=
  let argc := Z.of_nat (List.length argv) in
  (* line 73 *)
  bad <- (if argc <? 1 then mret true
          else
            match nth_error argv 1 with
            | None => undefined
            | Some arg =>
                match sscanf_d arg with
                | (n, Some v) =>
                    if ((INT_MIN <=? v) && (v <=? INT_MAX))%bool
                    then set_fd v;; mret (negb (n =? 1))
                    else undefined
                | (n, None) => mret (negb (n =? 1))
                end
            end);;
  (if bad : bool then
     match nth_error argv 0 with
     | Some name => printf ("usage: " ++ name ++ " <fd>")
     | None => undefined
     end;;
     exit 1
   else mret tt);;
  (* line 78 *)
  usb_session fuel.

(** A run of the program: how it ended and the state it ended in. *)
Definition run (env : environment) (fuel : nat) (argv : list string)
  : result Z * state :=
  main fuel argv env (initial_state env).

Definition outcome (r : result Z * state) : result Z := fst r.

(** The events of a run, oldest first. *)
Definition trace (r : result Z * state) : list event := rev (log (snd r)).

(** ** Observations on traces *)

(** What the program does to the outside world, without what comes back. *)
Inductive action : Type :=
| Call (c : libusb_call)
| Sleep (seconds : Z).

Fixpoint actions (tr : list event) : list action :=
  match tr with
  | [] => []
  | ECall c _ :: rest => Call c :: actions rest
  | ESleep n :: rest => Sleep n :: actions rest
  | _ :: rest => actions rest
  end.

(** The events that follow the first event satisfying [p]. *)
Fixpoint events_after (p : event -> bool) (tr : list event) : list event :=
  match tr with
  | [] => []
  | e :: rest => if p e then rest else events_after p rest
  end.

(** Kinds of events. *)
Definition is_kernel_driver_active (i : Z) (e : event) : bool :=
  match e with
  | ECall (libusb_kernel_driver_active j) _ => j =? i
  | _ => false
  end.

Definition is_claim (i : Z) (e : event) : bool :=
  match e with
  | ECall (libusb_claim_interface j) _ => j =? i
  | _ => false
  end.

Definition is_control_transfer (e : event) : bool :=
  match e with
  | ECall (libusb_control_transfer _ _ _ _ _ _ _) _ => true
  | _ => false
  end.

Definition is_bulk_transfer (e : event) : bool :=
  match e with
  | ECall (libusb_bulk_transfer _ _ _ _) _ => true
  | _ => false
  end.

Definition is_transfer (e : event) : bool :=
  (is_control_transfer e || is_bulk_transfer e)%bool.

Definition is_claim_or_transfer (e : event) : bool :=
  match e with
  | ECall (libusb_claim_interface _) _ => true
  | ECall (libusb_control_transfer _ _ _ _ _ _ _) _ => true
  | ECall (libusb_bulk_transfer _ _ _ _) _ => true
  | _ => false
  end.

(** The events the transfer loop can produce. *)
Definition is_loop_event (e : event) : bool :=
  match e with
  | ECall (libusb_bulk_transfer _ _ _ _) _ => true
  | ECall _ _ => false
  | _ => true
  end.

(** The two control transfers of [main]. *)
Definition line_state_call : libusb_call :=
  libusb_control_transfer 0x21 0x22 0x03 0 [] 0 0.

Definition line_encoding_call : libusb_call :=
  libusb_control_transfer 0x21 0x20 0 0 [0x00; 0xC2; 0x01; 0x00; 0x00; 0x00; 0x08]
    7 0.

(** The two bulk transfers of an iteration of the loop. *)
Definition write_call : libusb_call :=
  libusb_bulk_transfer 0x02 [116] 1 0.

Definition read_call : libusb_call :=
  libusb_bulk_transfer 0x82 [] 64 1000.

(** The status a finished process hands to its parent, if the run finished. *)
Definition exit_status (r : result Z) : option Z :=
  match r with
  | Normal v => Some v
  | Exited n => Some n
  | _ => None
  end.

(** ** The line-coding record as the specification lays it out *)

(** Byte [i] of the little-endian encoding of [n]. *)
Definition le_byte (n : Z) (i : Z) : Z := Z.land (Z.shiftr n (8 * i)) 0xFF.

Definition le32 (n : Z) : list Z :=
  [le_byte n 0; le_byte n 1; le_byte n 2; le_byte n 3].

(** The number a list of bytes encodes, least significant byte first. *)
Fixpoint le_decode (bytes : list Z) : Z :=
  match bytes with
  | [] => 0
  | b :: rest => b + 256 * le_decode rest
  end.

(** The seven bytes of the specification: the baud rate as a little-endian
    32-bit number, then the stop-bits, parity and data-bits bytes. *)
Definition line_coding (baud stop_bits parity data_bits : Z) : list Z :=
  le32 baud ++ [stop_bits; parity; data_bits].

(** ** Concrete environments *)

Definition no_name (code : Z) : string := "LIBUSB_ERROR"%string.

(** Every call succeeds and the device sends nothing. *)
Definition quiet_env : environment :=
  {| respond := fun _ _ => mkResponse 0 0 [];
     libusb_error_name := no_name;
     stack_buf := repeat 0 65 |}.

(** Every call succeeds but the reads, which time out. *)
Definition timeout_env : environment :=
  {| respond := fun _ c =>
       match c with
       | libusb_bulk_transfer endpoint _ _ _ =>
           if Z.testbit endpoint 7
           then mkResponse LIBUSB_ERROR_TIMEOUT 0 []
           else mkResponse 0 1 []
       | _ => mkResponse 0 0 []
       end;
     libusb_error_name := no_name;
     stack_buf := repeat 0 65 |}.

(** Every call succeeds but those that [fails] selects, which return
    [code]. *)
Definition failing_env (fails : libusb_call -> bool) (code : Z)
  : environment :=
  {| respond := fun _ c =>
       if fails c then mkResponse code 0 [] else mkResponse 0 0 [];
     libusb_error_name := no_name;
     stack_buf := repeat 0 65 |}.

(** A kernel driver is attached to both interfaces and cannot be detached;
    every other call succeeds. *)
Definition detach_fails_env : environment :=
  {| respond := fun _ c =>
       match c with
       | libusb_kernel_driver_active _ => mkResponse 1 0 []
       | libusb_detach_kernel_driver _ => mkResponse (-5) 0 []
       | _ => mkResponse 0 0 []
       end;
     libusb_error_name := no_name;
     stack_buf := repeat 0 65 |}.

(** The calls that the failing environments single out. *)
Definition is_init (c : libusb_call) : bool :=
  match c with libusb_init => true | _ => false end.

Definition is_wrap (c : libusb_call) : bool :=
  match c with libusb_wrap_sys_device _ => true | _ => false end.

Definition is_claim_of (i : Z) (c : libusb_call) : bool :=
  match c with libusb_claim_interface j => j =? i | _ => false end.

Definition is_line_encoding (c : libusb_call) : bool :=
  match c with
  | libusb_control_transfer _ request _ _ _ _ _ => request =? 0x20
  | _ => false
  end.

(** No event of the trace satisfies [p]. *)
Definition never (p : event -> bool) (tr : list event) : bool :=
  forallb (fun e => negb (p e)) tr.

(** The command line of the examples: the program name and descriptor 7. *)
Definition argv_7 : list string := ["usbtest"; "7"]%string.

(** The state in which the first libusb call is made, the descriptor read
    from the command line being [v]. *)
Definition session_start (env : environment) (v : Z) : state :=
  {| devh := false; fd := v; rc := 0; buf := stack_buf env; len := 0;
     log := [] |}.

(** The transfer loop of [main] on its own. *)
Definition transfer_loop (fuel : nat) : M unit :=
  while fuel (fun _ => true) loop_body.

(** The calls and the pause of one round of the loop. *)
Definition round : list action :=
  [Call write_call; Call read_call; Sleep 1].

Fixpoint rounds (n : nat) : list action :=
  match n with
  | O => []
  | S n' => rounds n' ++ round
  end.

(** ** More observations on traces *)

Definition is_close (e : event) : bool :=
  match e with
  | ECall libusb_close _ => true
  | _ => false
  end.

Definition is_libusb_exit (e : event) : bool :=
  match e with
  | ECall libusb_exit _ => true
  | _ => false
  end.

Definition is_stdout (e : event) : bool :=
  match e with
  | EStdout _ => true
  | _ => false
  end.

Definition is_stderr (e : event) : bool :=
  match e with
  | EStderr _ => true
  | _ => false
  end.

(** The last event of a trace. *)
Definition last_event (tr : list event) : option event := hd_error (rev tr).

(** The text [main] puts before the name of the error when a call of the
    set-up fails (usbtest.c, lines 80, 87, 94, 111, 123 and 135). *)
Definition failure_prefix (c : libusb_call) : string :=
  match c with
  | libusb_set_option _ => "Error setting libusb option: "
  | libusb_init => "Error initializing libusb: "
  | libusb_wrap_sys_device _ => "Error wrapping file descriptor: "
  | libusb_claim_interface _ => "Error claiming interface: "
  | libusb_control_transfer _ _ _ _ _ _ _ => "Error during control transfer: "
  | _ => EmptyString
  end.

(** The calls whose result [main] tests. *)
Definition is_checked (c : libusb_call) : bool :=
  match c with
  | libusb_set_option _ | libusb_init | libusb_wrap_sys_device _
  | libusb_claim_interface _ | libusb_control_transfer _ _ _ _ _ _ _ => true
  | _ => false
  end.

(** The device sends the five bytes of [hello] at every read. *)
Definition hello_env : environment :=
  {| respond := fun _ c =>
       match c with
       | libusb_bulk_transfer endpoint _ _ _ =>
           if Z.testbit endpoint 7
           then mkResponse 0 5 [104; 101; 108; 108; 111]
           else mkResponse 0 1 []
       | _ => mkResponse 0 0 []
       end;
     libusb_error_name := no_name;
     stack_buf := repeat 255 65 |}.

(** ** Symbolic execution *)

Ltac exec :=
  cbv beta iota zeta delta
    [bind until_out mret goto_out exit undefined emit get set_devh set_fd
     set_rc set_buf set_len call error_name printf fprintf_stderr sleep
     assign_rc wrap_sys_device fst snd
     devh fd rc buf len log negb initial_state].

Ltac exec_in H :=
  cbv beta iota zeta delta
    [bind until_out mret goto_out exit undefined emit get set_devh set_fd
     set_rc set_buf set_len call error_name printf fprintf_stderr sleep
     assign_rc wrap_sys_device fst snd
     devh fd rc buf len log negb initial_state] in H.

Ltac split_if :=
  match goal with
  | |- context [if (if ?b then _ else _) then _ else _] => destruct b eqn:?
  | |- context [if ?b then _ else _] => destruct b eqn:?
  end.

(** Name the answers of the environment, oldest first, so that the history
    of a call does not carry the histories of the calls before it. *)
Ltac name_responses env :=
  repeat match goal with
         | |- context [respond env ?h ?c] =>
             lazymatch h with
             | context [respond _ _ _] => fail
             | _ => let r := fresh "r" in generalize (respond env h c); intro r
             end
         end.

Ltac step env := exec; name_responses env.

(** ** The argument check *)

Lemma starts_with_digit_false (s : string) (n : Z) (v : Z) :
  (if starts_with_digit s then (1, Some v) else (0, @None Z)) = (n, None) ->
  n <> 1.
Proof. destruct (starts_with_digit s); intros H; inversion H; lia. Qed.

Lemma sscanf_d_none (s : string) (n : Z) : sscanf_d s = (n, None) -> n <> 1.
Proof.
  unfold sscanf_d. destruct (skip_space s) as [|c rest].
  - intros H; inversion H; lia.
  - destruct (Ascii.eqb c "-").
    + apply starts_with_digit_false.
    + destruct (Ascii.eqb c "+").
      * apply starts_with_digit_false.
      * destruct (isdigit c); intros H; inversion H; lia.
Qed.

Lemma sscanf_d_some (s : string) (n v : Z) :
  sscanf_d s = (n, Some v) -> n = 1.
Proof.
  unfold sscanf_d. destruct (skip_space s) as [|c rest].
  - intros H; inversion H.
  - repeat match goal with
           | |- context [if ?b then _ else _] => destruct b
           end; intros H; inversion H; reflexivity.
Qed.

(** A run either stops in the argument check, without an event or with the
    usage line, or is the run of [usb_session] on the descriptor read. *)
Lemma run_arguments (env : environment) (argv : list string) :
  (forall fuel, run env fuel argv = (Undefined, initial_state env)) \/
  (exists text, forall fuel, run env fuel argv =
     (Exited 1,
      {| devh := false; fd := 0; rc := 0; buf := stack_buf env; len := 0;
         log := [EStdout text] |})) \/
  (exists v, forall fuel,
     run env fuel argv = usb_session fuel env (session_start env v)).
Proof.
  unfold run, main.
  destruct argv as [|prog [|arg rest]].
  - left. intros fuel. reflexivity.
  - left. intros fuel. reflexivity.
  - replace (Z.of_nat (List.length (prog :: arg :: rest)) <? 1) with false
      by (symmetry; apply Z.ltb_ge; simpl List.length; lia).
    cbv beta iota zeta delta [nth_error].
    destruct (sscanf_d arg) as [n [v|]] eqn:Hscan.
    + apply sscanf_d_some in Hscan. subst n.
      destruct ((INT_MIN <=? v) && (v <=? INT_MAX))%bool.
      * right. right. exists v. intros fuel. reflexivity.
      * left. intros fuel. reflexivity.
    + apply sscanf_d_none in Hscan.
      apply Z.eqb_neq in Hscan.
      right. left. eexists. intros fuel. unfold bind at 1. unfold mret at 1.
      rewrite Hscan. reflexivity.
Qed.

(** ** The transfer loop *)

(** One round of the loop always runs to its end: it logs the write, an
    error line if the write failed, the read, a line if the read timed out
    or failed, the store, the line received and the pause. *)
Lemma loop_body_log (env : environment) (s : state) :
  exists (w r : response) (wlog rlog : list event) (index : Z)
         (text : string) (s' : state),
    loop_body env s = (Normal tt, s') /\
    rev (log s') =
      rev (log s) ++ ECall write_call w :: wlog ++ ECall read_call r ::
      rlog ++ [EStore index; EStdout text; ESleep 1] /\
    wlog = (if ret w <? 0
            then [EStderr ("Error while sending char" ++ nl)] else []) /\
    rlog = (if ret r =? LIBUSB_ERROR_TIMEOUT
            then [EStdout ("timeout (" ++ string_of_Z (transferred r) ++
                           ")" ++ nl)]
            else if ret r <? 0
                 then [EStderr ("Error while waiting for char" ++ nl)]
                 else []) /\
    index = (if ret r =? LIBUSB_ERROR_TIMEOUT then -1
             else if ret r <? 0 then -1 else transferred r).
Proof.
  destruct s as [d f c b l lg].
  unfold loop_body, write_char, read_chars, store_buf, bulk_transfer.
  change (Z.testbit ep_out_addr 7) with false.
  change (Z.testbit ep_in_addr 7) with true.
  exec.
  set (w := respond env lg (libusb_bulk_transfer ep_out_addr [116] 1 0)).
  exists w.
  destruct (ret w <? 0) eqn:Hw; exec;
    match goal with
    | |- context [respond env ?h (libusb_bulk_transfer ep_in_addr [] 64 1000)] =>
        set (r := respond env h (libusb_bulk_transfer ep_in_addr [] 64 1000))
    end;
    exists r;
    destruct (ret r =? LIBUSB_ERROR_TIMEOUT) eqn:Ht; exec;
    repeat (split_if; exec);
    do 5 eexists;
    (split; [reflexivity|]);
    (split; [|split; [reflexivity|split; reflexivity]]);
    cbn [rev app]; rewrite <- !app_assoc; reflexivity.
Qed.

(** The loop never ends by itself: whatever the fuel, it runs out. *)
Lemma transfer_loop_running (env : environment) (fuel : nat) :
  forall s, exists s', transfer_loop fuel env s = (Running, s').
Proof.
  unfold transfer_loop.
  induction fuel as [|fuel IH]; intros s.
  - exists s. reflexivity.
  - destruct (loop_body_log env s) as (w & r & wl & rl & i & t & s1 & Hb & _).
    destruct (IH s1) as (s' & Hs').
    exists s'. cbn [while]. exec. rewrite Hb. exact Hs'.
Qed.

(** One more unit of fuel is one more round at the end. *)
Lemma transfer_loop_succ (env : environment) (fuel : nat) :
  forall s sn s',
    transfer_loop fuel env s = (Running, sn) ->
    loop_body env sn = (Normal tt, s') ->
    transfer_loop (S fuel) env s = (Running, s').
Proof.
  unfold transfer_loop.
  induction fuel as [|fuel IH]; intros s sn s' Hn Hb.
  - cbn [while] in Hn. exec_in Hn. inversion Hn; subst sn.
    cbn [while]. exec. rewrite Hb. reflexivity.
  - destruct (loop_body_log env s) as (w & r & wl & rl & i & t & s1 & Hb1 & _).
    cbn [while] in Hn. exec_in Hn. rewrite Hb1 in Hn.
    pose proof (IH s1 sn s' Hn Hb) as Hs.
    change (while (S (S fuel)) (fun _ => true) loop_body env s)
      with ((loop_body;; while (S fuel) (fun _ => true) loop_body) env s).
    exec. rewrite Hb1. exact Hs.
Qed.

(** What the loop adds to the log are events of the loop. *)
Lemma transfer_loop_log (env : environment) (fuel : nat) :
  forall s s',
    transfer_loop fuel env s = (Running, s') ->
    exists evs,
      rev (log s') = rev (log s) ++ evs /\
      forallb is_loop_event evs = true.
Proof.
  induction fuel as [|fuel IH]; intros s s' Hrun.
  - unfold transfer_loop in Hrun. cbn [while] in Hrun. exec_in Hrun.
    inversion Hrun; subst s'. exists []. rewrite app_nil_r. split; reflexivity.
  - destruct (transfer_loop_running env fuel s) as (sn & Hn).
    destruct (loop_body_log env sn)
      as (w & r & wl & rl & i & t & s1 & Hb & Hlog & Hwl & Hrl & _).
    rewrite (transfer_loop_succ env fuel s sn s1 Hn Hb) in Hrun.
    inversion Hrun; subst s'.
    destruct (IH s sn Hn) as (evs & Hevs & Hall).
    eexists. rewrite Hlog, Hevs, <- app_assoc. split; [reflexivity|].
    rewrite forallb_app, Hall. cbn [andb forallb is_loop_event write_call].
    rewrite forallb_app. cbn [andb forallb is_loop_event read_call].
    rewrite forallb_app. cbn [andb forallb is_loop_event].
    subst wl rl.
    destruct (ret w <? 0), (ret r =? LIBUSB_ERROR_TIMEOUT), (ret r <? 0);
      reflexivity.
Qed.

Lemma for_range_0_2 (body : Z -> M unit) :
  for_range 0 2 body = (body 0;; body 1;; mret tt).
Proof. reflexivity. Qed.

(** Fuel matters to a session only once the loop is reached. *)
Lemma usb_session_fuel (env : environment) (s0 : state) (fuel : nat) :
  match usb_session 0 env s0 with
  | (Running, s9) =>
      usb_session fuel env s0 = (Running, snd (transfer_loop fuel env s9))
  | other => usb_session fuel env s0 = other
  end.
Proof.
  destruct s0 as [d f c b l lg].
  unfold usb_session. rewrite !for_range_0_2. cbn [while]. step env.
  repeat (split_if; step env); try reflexivity;
    match goal with
    | |- context [while fuel _ _ env ?s] =>
        destruct (transfer_loop_running env fuel s) as (s' & Hs');
        unfold transfer_loop in *; rewrite Hs'; reflexivity
    end.
Qed.

Lemma run_fuel (env : environment) (argv : list string) (fuel : nat) :
  match run env 0 argv with
  | (Running, s9) =>
      run env fuel argv = (Running, snd (transfer_loop fuel env s9))
  | other => run env fuel argv = other
  end.
Proof.
  destruct (run_arguments env argv) as [H | [(text & H) | (v & H)]].
  - rewrite (H 0%nat), (H fuel). reflexivity.
  - rewrite (H 0%nat), (H fuel). reflexivity.
  - rewrite (H 0%nat), (H fuel). apply usb_session_fuel.
Qed.

(** How a run ends does not depend on the fuel. *)
Lemma run_outcome_fuel (env : environment) (argv : list string) (fuel : nat) :
  outcome (run env fuel argv) = outcome (run env 0 argv).
Proof.
  pose proof (run_fuel env argv fuel) as H.
  destruct (run env 0 argv) as [[a| | | |] s9]; rewrite H; reflexivity.
Qed.

(** With fuel a run only adds events of the loop to the run without, and
    none if that run is not in the loop. *)
Lemma run_trace_fuel (env : environment) (argv : list string) (fuel : nat) :
  exists evs,
    trace (run env fuel argv) = trace (run env 0 argv) ++ evs /\
    forallb is_loop_event evs = true /\
    (outcome (run env 0 argv) <> Running -> evs = []).
Proof.
  pose proof (run_fuel env argv fuel) as H.
  destruct (run env 0 argv) as [[a| | | |] s9]; rewrite H;
    try (exists []; rewrite app_nil_r; repeat split; reflexivity).
  destruct (transfer_loop_running env fuel s9) as (s' & Hs').
  rewrite Hs'. unfold trace. cbn [snd].
  destruct (transfer_loop_log env fuel s9 s' Hs') as (evs & H1 & H2).
  exists evs. repeat split; try assumption.
  intros Hne. exfalso. apply Hne. reflexivity.
Qed.

(** A run in the loop goes through one more round with one more unit of
    fuel, and is in the loop still. *)
Lemma run_succ (env : environment) (argv : list string) (fuel : nat) :
  outcome (run env fuel argv) = Running ->
  exists (w r : response) (wlog rlog : list event) (index : Z)
         (text : string),
    outcome (run env (S fuel) argv) = Running /\
    trace (run env (S fuel) argv) =
      trace (run env fuel argv) ++ ECall write_call w :: wlog ++
      ECall read_call r :: rlog ++ [EStore index; EStdout text; ESleep 1] /\
    wlog = (if ret w <? 0
            then [EStderr ("Error while sending char" ++ nl)] else []) /\
    rlog = (if ret r =? LIBUSB_ERROR_TIMEOUT
            then [EStdout ("timeout (" ++ string_of_Z (transferred r) ++
                           ")" ++ nl)]
            else if ret r <? 0
                 then [EStderr ("Error while waiting for char" ++ nl)]
                 else []) /\
    index = (if ret r =? LIBUSB_ERROR_TIMEOUT then -1
             else if ret r <? 0 then -1 else transferred r).
Proof.
  intros Hrun.
  rewrite run_outcome_fuel in Hrun.
  pose proof (run_fuel env argv fuel) as Hn.
  pose proof (run_fuel env argv (S fuel)) as HS.
  destruct (run env 0 argv) as [[a| | | |] s9]; try discriminate Hrun.
  destruct (transfer_loop_running env fuel s9) as (sn & Hsn).
  destruct (loop_body_log env sn)
    as (w & r & wl & rl & i & t & s1 & Hb & Hlog & Hwl & Hrl & Hi).
  rewrite (transfer_loop_succ env fuel s9 sn s1 Hsn Hb) in HS.
  rewrite Hsn in Hn. rewrite Hn, HS.
  exists w, r, wl, rl, i, t. unfold trace, outcome. cbn [fst snd].
  repeat split; assumption.
Qed.

(** Execute the runs of [main] without fuel: one goal for every way in
    which the run can go. *)
Ltac run_cases_0 env argv :=
  let H := fresh "H" in
  let text := fresh "text" in
  let v := fresh "v" in
  destruct (run_arguments env argv) as [H | [(text & H) | (v & H)]];
  rewrite !(H 0%nat); clear H;
  [ | | unfold usb_session, session_start; rewrite !for_range_0_2;
        cbn [while]; step env; repeat (split_if; step env) ];
  unfold trace, outcome; exec; cbn [rev app].

(** Reduce a statement on the runs of [main] to the runs without fuel, and
    execute those. *)
Ltac run_cases env fuel argv :=
  let evs := fresh "evs" in
  let Htr := fresh "Htr" in
  let Hloop := fresh "Hloop" in
  let Hnil := fresh "Hnil" in
  destruct (run_trace_fuel env argv fuel) as (evs & Htr & Hloop & Hnil);
  rewrite ?Htr, ?(run_outcome_fuel env argv fuel); clear Htr;
  revert Hnil;
  run_cases_0 env argv.

(** Path conditions as propositions. *)
Ltac bool_hyps :=
  repeat match goal with
         | H : (_ <? _) = true |- _ => apply Z.ltb_lt in H
         | H : (_ <? _) = false |- _ => apply Z.ltb_ge in H
         | H : (_ <=? _) = true |- _ => apply Z.leb_le in H
         | H : (_ <=? _) = false |- _ => apply Z.leb_gt in H
         | H : (_ =? _) = true |- _ => apply Z.eqb_eq in H
         | H : (_ =? _) = false |- _ => apply Z.eqb_neq in H
         end.

(** One goal for every event of a trace given by its elements. *)
Ltac in_cases H :=
  lazymatch type of H with
  | In _ (_ :: _) => destruct H as [H | H]; [ | in_cases H ]
  | In _ [] => destruct H
  | _ => idtac
  end.

Lemma loop_event_call (evs : list event) (c : libusb_call) (r : response) :
  forallb is_loop_event evs = true ->
  In (ECall c r) evs ->
  exists endpoint data length timeout,
    c = libusb_bulk_transfer endpoint data length timeout.
Proof.
  intros Hall Hin.
  rewrite forallb_forall in Hall. specialize (Hall _ Hin).
  destruct c; try discriminate Hall.
  do 4 eexists. reflexivity.
Qed.

(** C4: a call of the set-up that fails ends the run before any later
    stage: a failure of [libusb_set_option] or [libusb_init] before any other
    call, a failure of wrapping before any claim or transfer, a failure of a
    claim before any transfer, a failure of a control transfer before any
    bulk transfer; from wrapping on [main] returns the negative code. *)
Theorem setup_failure_stops_later_stages :
  forall env fuel argv c r,
    In (ECall c r) (trace (run env fuel argv)) ->
    ret r < 0 ->
    match c with
    | libusb_set_option _ =>
        outcome (run env fuel argv) = Exited 1 /\
        actions (trace (run env fuel argv)) = [Call c]
    | libusb_init =>
        outcome (run env fuel argv) = Exited 1 /\
        actions (trace (run env fuel argv)) =
          [Call (libusb_set_option LIBUSB_OPTION_WEAK_AUTHORITY); Call c]
    | libusb_wrap_sys_device _ =>
        outcome (run env fuel argv) = Normal (ret r) /\ ret r <> 0 /\
        never is_claim_or_transfer (trace (run env fuel argv)) = true
    | libusb_claim_interface _ =>
        outcome (run env fuel argv) = Normal (ret r) /\ ret r <> 0 /\
        never is_transfer (trace (run env fuel argv)) = true
    | libusb_control_transfer _ _ _ _ _ _ _ =>
        outcome (run env fuel argv) = Normal (ret r) /\ ret r <> 0 /\
        never is_bulk_transfer (trace (run env fuel argv)) = true
    | _ => True
    end.
Proof.
  intros env fuel argv.
  run_cases env fuel argv;
    intros Hnil c x Hin Hneg; bool_hyps;
    try (rewrite (Hnil ltac:(discriminate)) in * ); clear Hnil;
    in_cases Hin;
    try (inversion Hin; subst; clear Hin);
    try lia;
    try (destruct (loop_event_call _ _ _ Hloop Hin) as (e & d & l & t & ->);
         exact I);
    cbn; repeat split; try reflexivity; try lia.


Qed.

Lemma setup_failure_stops_later_stages_witness :
  outcome (run (failing_env is_wrap (-4)) 3 argv_7) = Normal (-4) /\
  never is_claim_or_transfer (trace (run (failing_env is_wrap (-4)) 3 argv_7))
    = true /\
  outcome (run (failing_env (is_claim_of 0) (-6)) 3 argv_7) = Normal (-6) /\
  never is_transfer (trace (run (failing_env (is_claim_of 0) (-6)) 3 argv_7))
    = true.
Proof.
  assert (Hwrap : In (ECall (libusb_wrap_sys_device 7) (mkResponse (-4) 0 []))
                     (trace (run (failing_env is_wrap (-4)) 3 argv_7))).
  { vm_compute. do 2 right. left. reflexivity. }
  assert (Hclaim : In (ECall (libusb_claim_interface 0)
                         (mkResponse (-6) 0 []))
                      (trace (run (failing_env (is_claim_of 0) (-6)) 3
                                argv_7))).
  { vm_compute. do 4 right. left. reflexivity. }
  pose proof (setup_failure_stops_later_stages _ _ _ _ _ Hwrap
                ltac:(cbn; lia)) as (H1 & _ & H2).
  pose proof (setup_failure_stops_later_stages _ _ _ _ _ Hclaim
                ltac:(cbn; lia)) as (H3 & _ & H4).
  repeat split; assumption.
Defined.

(** ** The line-coding record *)

Lemma le_decode_le32 (n : Z) : 0 <= n < 2 ^ 32 -> le_decode (le32 n) = n.
Proof.
  intros Hn. unfold le32, le_byte, le_decode.
  change 0xFF with (Z.ones 8).
  rewrite !Z.land_ones, !Z.shiftr_div_pow2 by lia.
  change (2 ^ (8 * 0)) with 1. change (2 ^ (8 * 1)) with 256.
  change (2 ^ (8 * 2)) with 65536. change (2 ^ (8 * 3)) with 16777216.
  change (2 ^ 8) with 256. change (2 ^ 32) with 4294967296 in Hn.
  Z.to_euclidean_division_equations. lia.
Qed.

Lemma le_byte_range (n i : Z) : 0 <= le_byte n i < 256.
Proof.
  unfold le_byte. change 0xFF with (Z.ones 8).
  rewrite Z.land_ones by lia. apply Z.mod_pos_bound. reflexivity.
Qed.

(** C2: every control transfer with request 0x20 that a run makes has request
    type 0x21, value 0, index 0, no timeout and the seven bytes
    00 C2 01 00 00 00 08, which are the line-coding record of 115200 baud
    with stop-bits byte 0 (one stop bit), parity byte 0 (none) and 8 data
    bits; the first four bytes of a line-coding record are the baud rate,
    least significant byte first (80 25 00 00 for 9600). *)
Theorem line_encoding_transfer :
  forall env fuel argv request_type value index data length timeout r
         baud stop_bits parity data_bits,
    In (ECall (libusb_control_transfer request_type 0x20 value index data
                 length timeout) r)
       (trace (run env fuel argv)) ->
    0 <= baud < 2 ^ 32 ->
    request_type = 0x21 /\ value = 0 /\ index = 0 /\ length = 7 /\
    timeout = 0 /\
    data = [0x00; 0xC2; 0x01; 0x00; 0x00; 0x00; 0x08] /\
    data = line_coding 115200 0 0 8 /\
    List.length (line_coding baud stop_bits parity data_bits) = 7%nat /\
    le_decode (firstn 4 (line_coding baud stop_bits parity data_bits)) = baud /\
    Forall (fun b => 0 <= b < 256)
      (firstn 4 (line_coding baud stop_bits parity data_bits)) /\
    skipn 4 (line_coding baud stop_bits parity data_bits) =
      [stop_bits; parity; data_bits] /\
    firstn 4 (line_coding 9600 0 0 8) = [0x80; 0x25; 0x00; 0x00].
Proof.
  intros env fuel argv t v i d l to r baud sb pa db Hin Hbaud.
  assert (Hcall : libusb_control_transfer t 0x20 v i d l to =
                  line_encoding_call).
  { revert t v i d l to r Hin. clear Hbaud.
    run_cases env fuel argv;
      intros Hnil t v' i d l to x Hin;
      try (rewrite (Hnil ltac:(discriminate)) in * ); clear Hnil;
      in_cases Hin;
      try (inversion Hin; subst; reflexivity);
      try discriminate Hin;
      destruct (loop_event_call _ _ _ Hloop Hin) as (e & d' & l' & t' & Hc);
      discriminate Hc. }
  inversion Hcall; subst.
  repeat split; try reflexivity.
  - change (firstn 4 (line_coding baud sb pa db)) with (le32 baud).
    apply le_decode_le32. exact Hbaud.
  - change (firstn 4 (line_coding baud sb pa db)) with (le32 baud).
    unfold le32. repeat constructor; apply le_byte_range.
Qed.

Lemma line_encoding_transfer_witness :
  In (ECall line_encoding_call (mkResponse 0 0 []))
     (trace (run quiet_env 1 argv_7)) /\
  [0x00; 0xC2; 0x01; 0x00; 0x00; 0x00; 0x08] = line_coding 115200 0 0 8 /\
  le_decode (firstn 4 (line_coding 9600 0 0 8)) = 9600.
Proof.
  assert (Hin : In (ECall line_encoding_call (mkResponse 0 0 []))
                   (trace (run quiet_env 1 argv_7))).
  { vm_compute. do 8 right. left. reflexivity. }
  assert (Hbaud : 0 <= 9600 < 2 ^ 32) by lia.
  pose proof (line_encoding_transfer quiet_env 1 argv_7 _ _ _ _ _ _ _
                9600 0 0 8 Hin Hbaud) as H.
  destruct H as (_ & _ & _ & _ & _ & _ & H1 & _ & H2 & _).
  split; [exact Hin | split; [exact H1 | exact H2]].
Defined.

(** ** The argument check *)

(** C1: without a descriptor argument [argc] is 1, the test [argc < 1] does
    not hold and [sscanf] is handed the null pointer [argv[1]]: the run has
    no defined behaviour, no usage line is printed and no status 1 is
    promised. *)
Theorem missing_argument_is_undefined :
  forall env fuel prog,
    run env fuel [prog] = (Undefined, initial_state env) /\
    trace (run env fuel [prog]) = [] /\
    exit_status (outcome (run env fuel [prog])) = None.
Proof. intros env fuel prog. repeat split. Qed.

(** An argument that [sscanf] does not convert gives the usage line and
    status 1, and no libusb call. *)
Lemma unconverted_argument_usage :
  forall env fuel prog arg rest,
    fst (sscanf_d arg) <> 1 ->
    outcome (run env fuel (prog :: arg :: rest)) = Exited 1 /\
    trace (run env fuel (prog :: arg :: rest)) =
      [EStdout ("usage: " ++ prog ++ " <fd>")].
Proof.
  intros env fuel prog arg rest Hscan.
  unfold run, main.
  replace (Z.of_nat (List.length (prog :: arg :: rest)) <? 1) with false
    by (symmetry; apply Z.ltb_ge; simpl List.length; lia).
  cbv beta iota zeta delta [nth_error].
  destruct (sscanf_d arg) as [n [v|]] eqn:Hs.
  - apply sscanf_d_some in Hs. contradiction.
  - cbn [fst] in Hscan. apply Z.eqb_neq in Hscan.
    unfold bind at 1. unfold mret at 1. rewrite Hscan. split; reflexivity.
Qed.

Lemma unconverted_argument_usage_witness :
  outcome (run quiet_env 3 ["usbtest"; "x"]%string) = Exited 1 /\
  trace (run quiet_env 3 ["usbtest"; "x"]%string) =
    [EStdout "usage: usbtest <fd>"].
Proof.
  apply (unconverted_argument_usage quiet_env 3 "usbtest" "x" []).
  vm_compute. discriminate.
Defined.

(** ** The transfer loop *)

Lemma actions_app (l1 l2 : list event) :
  actions (l1 ++ l2) = actions l1 ++ actions l2.
Proof.
  induction l1 as [|e l1 IH]; [reflexivity|].
  destruct e; cbn [app actions]; rewrite IH; reflexivity.
Qed.

(** C6: a round of the loop logs a read that times out, a read or a write
    that fails, and goes on. *)
Theorem transfer_errors_are_logged_and_loop_continues :
  forall env fuel argv,
    outcome (run env fuel argv) = Running ->
    exists w r wlog rlog index text,
      trace (run env (S fuel) argv) =
        trace (run env fuel argv) ++ ECall write_call w :: wlog ++
        ECall read_call r :: rlog ++
        [EStore index; EStdout text; ESleep 1] /\
      outcome (run env (S fuel) argv) = Running /\
      (ret r = LIBUSB_ERROR_TIMEOUT ->
       rlog = [EStdout ("timeout (" ++ string_of_Z (transferred r) ++ ")" ++
                        nl)]) /\
      (ret r < 0 -> ret r <> LIBUSB_ERROR_TIMEOUT ->
       rlog = [EStderr ("Error while waiting for char" ++ nl)]) /\
      (0 <= ret r -> rlog = []) /\
      (ret w < 0 -> wlog = [EStderr ("Error while sending char" ++ nl)]) /\
      (0 <= ret w -> wlog = []).
Proof.
  intros env fuel argv Hrun.
  destruct (run_succ env argv fuel Hrun)
    as (w & r & wlog & rlog & index & text & Hout & Htr & Hw & Hr & _).
  exists w, r, wlog, rlog, index, text.
  split; [exact Htr|]. split; [exact Hout|].
  subst wlog rlog.
  destruct (ret r =? LIBUSB_ERROR_TIMEOUT) eqn:Ht;
    destruct (ret r <? 0) eqn:Hn;
    destruct (ret w <? 0) eqn:Hwn;
    bool_hyps; unfold LIBUSB_ERROR_TIMEOUT in *;
    repeat split; intros; try reflexivity; lia.
Qed.

Lemma transfer_errors_are_logged_and_loop_continues_witness :
  exists w r wlog rlog index text,
    trace (run timeout_env 2 argv_7) =
      trace (run timeout_env 1 argv_7) ++ ECall write_call w :: wlog ++
      ECall read_call r :: rlog ++ [EStore index; EStdout text; ESleep 1] /\
    outcome (run timeout_env 2 argv_7) = Running.
Proof.
  destruct (transfer_errors_are_logged_and_loop_continues
              timeout_env 1 argv_7 eq_refl)
    as (w & r & wlog & rlog & index & text & Htr & Hout & _).
  exists w, r, wlog, rlog, index, text. split; assumption.
Defined.

(** C8: in the loop, every round is one write of the byte [t], one read of
    at most 64 bytes within 1000 ms and a pause of one second, and the loop
    does not end. *)
Theorem transfer_loop_rounds :
  forall env fuel argv,
    outcome (run env 0 argv) = Running ->
    outcome (run env fuel argv) = Running /\
    actions (trace (run env fuel argv)) =
      actions (trace (run env 0 argv)) ++ rounds fuel /\
    never is_bulk_transfer (trace (run env 0 argv)) = true /\
    write_call = libusb_bulk_transfer ep_out_addr
                   [Z.of_nat (nat_of_ascii "t")] 1 0 /\
    read_call = libusb_bulk_transfer ep_in_addr [] 64 1000.
Proof.
  intros env fuel argv H0.
  assert (Hout : forall n, outcome (run env n argv) = Running).
  { intros n. rewrite run_outcome_fuel. exact H0. }
  split; [apply Hout|]. split; [|split; [|split; reflexivity]].
  - induction fuel as [|fuel IH].
    + cbn [rounds]. rewrite app_nil_r. reflexivity.
    + destruct (run_succ env argv fuel (Hout fuel))
        as (w & r & wlog & rlog & index & text & _ & Htr & Hw & Hr & _).
      rewrite Htr, actions_app, IH, <- app_assoc. f_equal.
      cbn [rounds]. f_equal. subst wlog rlog.
      destruct (ret w <? 0), (ret r =? LIBUSB_ERROR_TIMEOUT), (ret r <? 0);
        reflexivity.
  - revert H0. clear Hout.
    run_cases_0 env argv; intros Hrun; try discriminate Hrun;
      reflexivity.
Qed.

Lemma transfer_loop_rounds_witness :
  outcome (run timeout_env 3 argv_7) = Running /\
  actions (trace (run timeout_env 3 argv_7)) =
    actions (trace (run timeout_env 0 argv_7)) ++ round ++ round ++ round.
Proof.
  destruct (transfer_loop_rounds timeout_env 3 argv_7 eq_refl)
    as (Hout & Hact & _).
  split; [exact Hout | exact Hact].
Defined.

(** C10: when the read times out [read_chars] returns -1 and the store that
    terminates the string goes to [buf[-1]], outside the array. *)
Theorem store_index_after_timeout :
  In (EStore (-1)) (trace (run timeout_env 1 argv_7)) /\
  ~ (0 <= -1 <= 64).
Proof.
  split.
  - vm_compute. do 12 right. left. reflexivity.
  - lia.
Qed.

(** The index of the store is -1 when the read fails and the number of bytes
    read when it succeeds. *)
Lemma store_index :
  forall env fuel argv,
    outcome (run env fuel argv) = Running ->
    exists pre w wlog r rlog index text,
      trace (run env (S fuel) argv) =
        pre ++ ECall write_call w :: wlog ++ ECall read_call r :: rlog ++
        [EStore index; EStdout text; ESleep 1] /\
      (ret r < 0 -> index = -1) /\
      (0 <= ret r -> index = transferred r).
Proof.
  intros env fuel argv Hrun.
  destruct (run_succ env argv fuel Hrun)
    as (w & r & wlog & rlog & index & text & _ & Htr & _ & _ & Hi).
  exists (trace (run env fuel argv)), w, wlog, r, rlog, index, text.
  split; [exact Htr|]. subst index.
  destruct (ret r =? LIBUSB_ERROR_TIMEOUT) eqn:Ht;
    destruct (ret r <? 0) eqn:Hn; bool_hyps;
    unfold LIBUSB_ERROR_TIMEOUT in *; split; intros; try reflexivity; lia.
Qed.

(** ** Release and close *)

(** C9: no run releases an interface; the handle is closed only on the way
    out after a failure, with a negative code returned by [main], and never
    while the loop runs. *)
Theorem release_never_executed :
  forall env fuel argv c r,
    In (ECall c r) (trace (run env fuel argv)) ->
    (forall i, c <> libusb_release_interface i) /\
    (c = libusb_close ->
     exists code, outcome (run env fuel argv) = Normal code /\ code < 0) /\
    (outcome (run env fuel argv) = Running -> c <> libusb_close).
Proof.
  intros env fuel argv.
  run_cases env fuel argv;
    intros Hnil c x Hin; bool_hyps;
    try (rewrite (Hnil ltac:(discriminate)) in * ); clear Hnil;
    in_cases Hin;
    try (inversion Hin; subst; clear Hin);
    try (destruct (loop_event_call _ _ _ Hloop Hin) as (e & d & l & t & ->));
    try lia;
    (split; [intros i; discriminate|]);
    (split; [intros Hc;
             first [discriminate Hc | eexists; split; [reflexivity | lia]]
            |intros Hc; first [discriminate Hc | discriminate]]).
Qed.

Lemma release_never_executed_witness :
  exists code,
    outcome (run (failing_env (is_claim_of 1) (-6)) 5 argv_7) = Normal code /\
    code < 0.
Proof.
  assert (Hin : In (ECall libusb_close (mkResponse 0 0 []))
                   (trace (run (failing_env (is_claim_of 1) (-6)) 5 argv_7))).
  { vm_compute. do 8 right. left. reflexivity. }
  destruct (release_never_executed _ _ _ _ _ Hin) as (_ & Hclose & _).
  exact (Hclose eq_refl).
Defined.

(** ** Exit status *)

(** C7 as stated fails: when [libusb_init] fails the status is 1, not the
    code of the library. *)
Lemma init_error_code_not_propagated :
  ~ (forall env fuel argv r,
       In (ECall libusb_init r) (trace (run env fuel argv)) ->
       ret r < 0 ->
       exit_status (outcome (run env fuel argv)) = Some (ret r)).
Proof.
  intros H.
  specialize (H (failing_env is_init (-11)) 0%nat argv_7
                (mkResponse (-11) 0 [])).
  assert (Hin : In (ECall libusb_init (mkResponse (-11) 0 []))
                   (trace (run (failing_env is_init (-11)) 0 argv_7))).
  { vm_compute. right. left. reflexivity. }
  specialize (H Hin ltac:(cbn; lia)).
  vm_compute in H. discriminate H.
Qed.

(** C7, amended: status 1 for an argument that is not converted and for a
    failure of [libusb_set_option] or [libusb_init]; the code of the library
    for a failure of wrapping, claiming or a control transfer; and no run
    ends with status 0. *)
Theorem exit_status_of_failures :
  forall env fuel argv,
    (forall c r,
       In (ECall c r) (trace (run env fuel argv)) ->
       ret r < 0 ->
       match c with
       | libusb_set_option _ | libusb_init =>
           exit_status (outcome (run env fuel argv)) = Some 1
       | libusb_wrap_sys_device _ | libusb_claim_interface _
       | libusb_control_transfer _ _ _ _ _ _ _ =>
           exit_status (outcome (run env fuel argv)) = Some (ret r)
       | _ => True
       end) /\
    (forall prog arg rest,
       argv = prog :: arg :: rest ->
       fst (sscanf_d arg) <> 1 ->
       exit_status (outcome (run env fuel argv)) = Some 1) /\
    exit_status (outcome (run env fuel argv)) <> Some 0.
Proof.
  intros env fuel argv. split; [|split].
  - run_cases env fuel argv;
      intros Hnil c x Hin Hneg; bool_hyps;
      try (rewrite (Hnil ltac:(discriminate)) in * ); clear Hnil;
      in_cases Hin;
      try (inversion Hin; subst; clear Hin);
      try lia;
      try (destruct (loop_event_call _ _ _ Hloop Hin) as (e & d & l & t & ->);
           exact I);
      reflexivity.
  - intros prog arg rest -> Hscan.
    destruct (unconverted_argument_usage env fuel prog arg rest Hscan)
      as (Hout & _).
    rewrite Hout. reflexivity.
  - run_cases env fuel argv; intros Hnil; bool_hyps; cbn [exit_status];
      try discriminate; intros Heq; inversion Heq; lia.
Qed.

Lemma exit_status_of_failures_witness :
  exit_status (outcome (run (failing_env is_wrap (-4)) 2 argv_7)) = Some (-4) /\
  exit_status (outcome (run quiet_env 2 ["usbtest"; "x"]%string)) = Some 1.
Proof.
  split.
  - assert (Hin : In (ECall (libusb_wrap_sys_device 7) (mkResponse (-4) 0 []))
                     (trace (run (failing_env is_wrap (-4)) 2 argv_7))).
    { vm_compute. do 2 right. left. reflexivity. }
    destruct (exit_status_of_failures (failing_env is_wrap (-4)) 2 argv_7)
      as (H & _ & _).
    exact (H _ _ Hin ltac:(cbn; lia)).
  - destruct (exit_status_of_failures quiet_env 2 ["usbtest"; "x"]%string)
      as (_ & H & _).
    apply (H "usbtest"%string "x"%string [] eq_refl).
    vm_compute. discriminate.
Defined.

(** ** Claiming the interfaces and configuring the line *)

(** Rewrite the tests of a goal with the path conditions. *)
Ltac use_conditions :=
  repeat match goal with
         | H : ?b = _ |- context [if ?b then _ else _] => rewrite H
         end.

(** Split a goal made of conjunctions, implications, existentials and
    equations, a hypothesis at odds with the path conditions closing its
    branch. *)
Ltac unfold_goal :=
  repeat match goal with
         | |- _ /\ _ => split
         | |- _ -> _ => intro; try (exfalso; lia)
         | |- exists _, _ => eexists
         | |- _ = _ => reflexivity
         end.

(** C5: for either interface, whatever [libusb_kernel_driver_active] and
    [libusb_detach_kernel_driver] return, the next call is the claim; the run
    ends there when the claim fails and goes on when it does not. *)
Theorem detach_result_is_not_checked :
  forall env fuel argv i a,
    In (ECall (libusb_kernel_driver_active i) a) (trace (run env fuel argv)) ->
    exists d c rest,
      events_after (is_kernel_driver_active i) (trace (run env fuel argv)) =
        (if ret a =? 0 then []
         else [ECall (libusb_detach_kernel_driver i) d]) ++
        ECall (libusb_claim_interface i) c :: rest /\
      (ret c < 0 ->
       outcome (run env fuel argv) = Normal (ret c) /\
       exists x y,
         rest = [EStderr ("Error claiming interface: " ++
                          libusb_error_name env (ret c) ++ nl);
                 ECall libusb_close x; ECall libusb_exit y]) /\
      (0 <= ret c ->
       exists n rest',
         rest = ECall (if i =? 0 then libusb_kernel_driver_active 1
                       else line_state_call) n :: rest').
Proof.
  intros env fuel argv.
  run_cases env fuel argv;
    intros Hnil i a Hin;
    try (rewrite (Hnil ltac:(discriminate)) in * ); clear Hnil;
    in_cases Hin;
    try (inversion Hin; subst; clear Hin);
    try (destruct (loop_event_call _ _ _ Hloop Hin) as (e & d & l & t & Hc);
         discriminate Hc);
    cbn [events_after is_kernel_driver_active Z.eqb Pos.eqb];
    use_conditions; bool_hyps;
    try (exfalso; lia);
    eexists _, _, _; (split; [cbn [app]; reflexivity|]);
    unfold_goal.
  Unshelve. all: exact (mkResponse 0 0 []).
Qed.

Lemma detach_result_is_not_checked_witness :
  exists d c rest,
    ret d = -5 /\
    events_after (is_kernel_driver_active 0)
      (trace (run detach_fails_env 0 argv_7)) =
      [ECall (libusb_detach_kernel_driver 0) d] ++
      ECall (libusb_claim_interface 0) c :: rest.
Proof.
  assert (Hin : In (ECall (libusb_kernel_driver_active 0) (mkResponse 1 0 []))
                   (trace (run detach_fails_env 0 argv_7))).
  { vm_compute. do 3 right. left. reflexivity. }
  destruct (detach_result_is_not_checked detach_fails_env 0 argv_7 0 _ Hin)
    as (d & c & rest & Hafter & _).
  exists d, c, rest. split; [|exact Hafter].
  vm_compute in Hafter. inversion Hafter. reflexivity.
Defined.

Lemma loop_events_no_control (evs : list event) :
  forallb is_loop_event evs = true ->
  filter is_control_transfer evs = [].
Proof.
  induction evs as [|e evs IH]; [reflexivity|].
  cbn [forallb filter]. intros H. apply andb_prop in H. destruct H as [He H].
  rewrite (IH H).
  destruct e as [c r| | | |]; try reflexivity.
  destruct c; try reflexivity; discriminate He.
Qed.

(** C3: once both interfaces are claimed the next call is the line-state
    transfer; if it fails the run ends with its code, otherwise the next call
    is the line-encoding transfer; if that fails the run ends with its code,
    otherwise the run is in the loop and makes no other control transfer. *)
Theorem control_transfers_after_claim :
  forall env fuel argv c,
    In (ECall (libusb_claim_interface 1) c) (trace (run env fuel argv)) ->
    0 <= ret c ->
    exists s rest,
      events_after (is_claim 1) (trace (run env fuel argv)) =
        ECall (libusb_control_transfer 0x21 0x22
                 (Z.lor ACM_CTRL_DTR ACM_CTRL_RTS) 0 [] 0 0) s :: rest /\
      Z.lor ACM_CTRL_DTR ACM_CTRL_RTS = 0x03 /\
      filter is_control_transfer (trace (run env fuel argv)) =
        filter is_control_transfer
          (events_after (is_claim 1) (trace (run env fuel argv))) /\
      (ret s < 0 ->
       outcome (run env fuel argv) = Normal (ret s) /\
       exists x y,
         rest = [EStderr ("Error during control transfer: " ++
                          libusb_error_name env (ret s) ++ nl);
                 ECall libusb_close x; ECall libusb_exit y]) /\
      (0 <= ret s ->
       exists e rest',
         rest = ECall (libusb_control_transfer 0x21 0x20 0 0
                         [0x00; 0xC2; 0x01; 0x00; 0x00; 0x00; 0x08] 7 0) e ::
                rest' /\
         (ret e < 0 ->
          outcome (run env fuel argv) = Normal (ret e) /\
          exists x y,
            rest' = [EStderr ("Error during control transfer: " ++
                              libusb_error_name env (ret e) ++ nl);
                     ECall libusb_close x; ECall libusb_exit y]) /\
         (0 <= ret e ->
          outcome (run env fuel argv) = Running /\
          filter is_control_transfer rest' = [])).
Proof.
  intros env fuel argv.
  run_cases env fuel argv;
    intros Hnil c Hin Hpos;
    try (rewrite (Hnil ltac:(discriminate)) in * ); clear Hnil;
    in_cases Hin;
    try discriminate Hin;
    try (inversion Hin; subst; clear Hin);
    try (destruct (loop_event_call _ _ _ Hloop Hin) as (e & d & l & t & Hc);
         discriminate Hc);
    cbn [events_after is_claim Z.eqb Pos.eqb filter is_control_transfer];
    bool_hyps;
    try (exfalso; lia);
    eexists _, _; (split; [reflexivity|]);
    unfold_goal;
    apply loop_events_no_control; exact Hloop.
Qed.

Lemma control_transfers_after_claim_witness :
  exists s rest,
    events_after (is_claim 1)
      (trace (run (failing_env is_line_encoding (-9)) 4 argv_7)) =
      ECall (libusb_control_transfer 0x21 0x22 0x03 0 [] 0 0) s :: rest /\
    outcome (run (failing_env is_line_encoding (-9)) 4 argv_7) =
      Normal (-9).
Proof.
  assert (Hin : In (ECall (libusb_claim_interface 1) (mkResponse 0 0 []))
                   (trace (run (failing_env is_line_encoding (-9)) 4
                             argv_7))).
  { vm_compute. do 6 right. left. reflexivity. }
  destruct (control_transfers_after_claim _ _ _ _ Hin ltac:(cbn; lia))
    as (s & rest & Hafter & _ & _ & _ & Hnext).
  exists s, rest. split; [exact Hafter|].
  reflexivity.
Defined.

(** * Further properties of the program *)

(** ** The functions [write_char] and [read_chars] *)


Lemma overwrite_length (dst src : list Z) :
  (List.length src <= List.length dst)%nat ->
  List.length (overwrite dst src) = List.length dst.
Proof.
  intros H. unfold overwrite. rewrite length_app, length_skipn. lia.
Qed.




(** ** The command line *)

(** A run that gets past the argument check has converted [argv[1]] to a
    number that fits [int], and is the session on that number. *)
Lemma run_arguments_parsed (env : environment) (argv : list string)
      (fuel : nat) :
  outcome (run env fuel argv) <> Undefined ->
  outcome (run env fuel argv) <> Exited 1 ->
  exists prog arg rest v,
    argv = prog :: arg :: rest /\
    sscanf_d arg = (1, Some v) /\
    INT_MIN <= v <= INT_MAX /\
    forall n, run env n argv = usb_session n env (session_start env v).
Proof.
  intros Hu He.
  destruct argv as [|prog [|arg rest]];
    try (exfalso; apply Hu; reflexivity).
  exists prog, arg, rest.
  revert Hu He. unfold run, main.
  replace (Z.of_nat (List.length (prog :: arg :: rest)) <? 1) with false
    by (symmetry; apply Z.ltb_ge; simpl List.length; lia).
  cbv beta iota zeta delta [nth_error].
  destruct (sscanf_d arg) as [n [v|]] eqn:Hscan.
  - pose proof (sscanf_d_some _ _ _ Hscan) as ->.
    destruct ((INT_MIN <=? v) && (v <=? INT_MAX))%bool eqn:Hrange.
    + intros _ _. exists v. apply andb_prop in Hrange.
      destruct Hrange as [H1 H2]. bool_hyps.
      repeat split; assumption.
    + intros Hu _. exfalso. apply Hu. reflexivity.
  - apply sscanf_d_none in Hscan. apply Z.eqb_neq in Hscan.
    unfold bind at 1. unfold mret at 1. rewrite Hscan.
    intros _ He. exfalso. apply He. reflexivity.
Qed.

(** X3: only [argv[0]] and [argv[1]] are read: arguments after the descriptor
    are ignored, and the name of the program matters to a run only when the
    descriptor is not converted, in the usage line. *)
Theorem later_arguments_are_ignored :
  forall env fuel prog prog' arg rest rest',
    run env fuel (prog :: arg :: rest) = run env fuel [prog; arg] /\
    (fst (sscanf_d arg) = 1 ->
     run env fuel (prog :: arg :: rest) = run env fuel (prog' :: arg :: rest')).
Proof.
  intros env fuel prog prog' arg rest rest'.
  unfold run, main.
  replace (Z.of_nat (List.length (prog :: arg :: rest)) <? 1) with false
    by (symmetry; apply Z.ltb_ge; simpl List.length; lia).
  replace (Z.of_nat (List.length (prog' :: arg :: rest')) <? 1) with false
    by (symmetry; apply Z.ltb_ge; simpl List.length; lia).
  change (Z.of_nat (List.length [prog; arg]) <? 1) with false.
  cbv beta iota zeta delta [nth_error].
  split; [reflexivity|].
  destruct (sscanf_d arg) as [n [v|]] eqn:Hscan; cbn [fst]; intros ->.
  - destruct ((INT_MIN <=? v) && (v <=? INT_MAX))%bool; reflexivity.
  - reflexivity.
Qed.

Lemma later_arguments_are_ignored_witness :
  run quiet_env 2 ["usbtest"; "7"; "--verbose"]%string =
  run quiet_env 2 ["a.out"; "7"]%string.
Proof.
  destruct (later_arguments_are_ignored quiet_env 2 "usbtest"%string
              "a.out"%string "7"%string ["--verbose"%string] [])
    as (_ & H).
  apply H. reflexivity.
Defined.

Lemma scan_digits_junk (digits : string) (c : ascii) (junk : string) :
  isdigit c = false ->
  forall acc,
    scan_digits (digits ++ String c junk) acc = scan_digits digits acc.
Proof.
  intros Hc. induction digits as [|d digits IH]; intros acc.
  - cbn [String.append scan_digits]. rewrite Hc. reflexivity.
  - cbn [String.append scan_digits]. destruct (isdigit d).
    + apply IH.
    + reflexivity.
Qed.

Lemma starts_with_digit_junk (s junk : string) :
  starts_with_digit s = true ->
  starts_with_digit (s ++ junk) = true.
Proof. destruct s as [|d s]; [discriminate|]. intros H. exact H. Qed.

Lemma skip_space_junk (s junk : string) :
  skip_space s <> EmptyString ->
  skip_space (s ++ junk) = (skip_space s ++ junk)%string.
Proof.
  induction s as [|a s IH]; intros H.
  - exfalso. apply H. reflexivity.
  - cbn [String.append skip_space] in *.
    destruct (isspace a); [apply IH; exact H | reflexivity].
Qed.

(** [sscanf] stops at the first character that cannot continue the number:
    text after the number is not looked at. *)
Lemma sscanf_d_junk (arg : string) (c : ascii) (junk : string) (v : Z) :
  sscanf_d arg = (1, Some v) ->
  isdigit c = false ->
  sscanf_d (arg ++ String c junk) = (1, Some v).
Proof.
  intros Hscan Hc. unfold sscanf_d in *.
  rewrite skip_space_junk
    by (intros E; rewrite E in Hscan; discriminate Hscan).
  destruct (skip_space arg) as [|a rest]; [discriminate Hscan|].
  cbn [String.append].
  destruct (Ascii.eqb a "-").
  - destruct (starts_with_digit rest) eqn:Hd; [|discriminate Hscan].
    rewrite (starts_with_digit_junk _ _ Hd), scan_digits_junk by exact Hc.
    exact Hscan.
  - destruct (Ascii.eqb a "+").
    + destruct (starts_with_digit rest) eqn:Hd; [|discriminate Hscan].
      rewrite (starts_with_digit_junk _ _ Hd), scan_digits_junk by exact Hc.
      exact Hscan.
    + destruct (isdigit a) eqn:Ha; [|discriminate Hscan].
      change (String a (rest ++ String c junk))
        with (String a rest ++ String c junk)%string.
      rewrite scan_digits_junk by exact Hc. exact Hscan.
Qed.

(** X4: the descriptor argument need not be a number as a whole: when it starts
    with a number, whatever follows from the first character that is not a
    digit is ignored and the run is that of the number alone. *)
Theorem text_after_the_number_is_ignored :
  forall env fuel prog arg c junk rest,
    fst (sscanf_d arg) = 1 ->
    isdigit c = false ->
    run env fuel (prog :: (arg ++ String c junk)%string :: rest) =
    run env fuel (prog :: arg :: rest).
Proof.
  intros env fuel prog arg c junk rest Hscan Hc.
  destruct (sscanf_d arg) as [n [v|]] eqn:Harg.
  - cbn [fst] in Hscan. subst n.
    pose proof (sscanf_d_junk arg c junk v Harg Hc) as Hj.
    unfold run, main.
    replace (Z.of_nat (List.length
                         (prog :: (arg ++ String c junk)%string :: rest))
             <? 1) with false
      by (symmetry; apply Z.ltb_ge; simpl List.length; lia).
    replace (Z.of_nat (List.length (prog :: arg :: rest)) <? 1) with false
      by (symmetry; apply Z.ltb_ge; simpl List.length; lia).
    cbv beta iota zeta delta [nth_error].
    rewrite Hj, Harg. reflexivity.
  - apply sscanf_d_none in Harg. cbn [fst] in Hscan. contradiction.
Qed.

Lemma text_after_the_number_is_ignored_witness :
  run quiet_env 1 ["usbtest"; "7abc"]%string =
  run quiet_env 1 ["usbtest"; "7"]%string.
Proof.
  exact (text_after_the_number_is_ignored quiet_env 1 "usbtest"%string
           "7"%string "a"%char "bc"%string [] eq_refl eq_refl).
Defined.

(** ** The set-up as a whole *)

(** Prove that a list given by its elements is a list written with tests on
    the answers: answers are read off element by element, tests are decided
    by the path conditions. *)
Ltac match_trace :=
  repeat first
    [ reflexivity
    | progress use_conditions; cbn [app]
    | apply (f_equal2 (@cons event)); [reflexivity|] ].

(** X5: a run that reaches the loop has converted [argv[1]] to a number and made
    these calls, in this order and no other: [libusb_set_option],
    [libusb_init], [libusb_wrap_sys_device] on that number, then for the
    interfaces 0 and 1 [libusb_kernel_driver_active], the detach call if the
    answer was not 0 and the claim, then the line-state and the line-encoding
    transfers; every call whose result is tested returned 0 or more, and
    what follows are events of the loop. *)
Theorem setup_sequence :
  forall env fuel argv,
    outcome (run env fuel argv) = Running ->
    exists prog arg rest v so ini wr a0 d0 c0 a1 d1 c1 ls le evs,
      argv = prog :: arg :: rest /\
      sscanf_d arg = (1, Some v) /\
      trace (run env fuel argv) =
        [ECall (libusb_set_option LIBUSB_OPTION_WEAK_AUTHORITY) so;
         ECall libusb_init ini;
         ECall (libusb_wrap_sys_device v) wr;
         ECall (libusb_kernel_driver_active 0) a0] ++
        (if ret a0 =? 0 then []
         else [ECall (libusb_detach_kernel_driver 0) d0]) ++
        [ECall (libusb_claim_interface 0) c0;
         ECall (libusb_kernel_driver_active 1) a1] ++
        (if ret a1 =? 0 then []
         else [ECall (libusb_detach_kernel_driver 1) d1]) ++
        [ECall (libusb_claim_interface 1) c1;
         ECall line_state_call ls;
         ECall line_encoding_call le] ++ evs /\
      0 <= ret so /\ 0 <= ret ini /\ 0 <= ret wr /\ 0 <= ret c0 /\
      0 <= ret c1 /\ 0 <= ret ls /\ 0 <= ret le /\
      forallb is_loop_event evs = true.
Proof.
  intros env fuel argv Hrun.
  destruct (run_trace_fuel env argv fuel) as (evs & Htr & Hloop & _).
  rewrite run_outcome_fuel in Hrun. rewrite Htr. clear Htr.
  destruct (run_arguments_parsed env argv 0)
    as (prog & arg & rest & v & Hargv & Hscan & _ & Hsession);
    try (rewrite Hrun; discriminate).
  exists prog, arg, rest, v.
  revert Hrun. rewrite (Hsession 0%nat). clear Hsession.
  unfold usb_session, session_start. rewrite !for_range_0_2.
  cbn [while]. step env. repeat (split_if; step env);
    unfold trace, outcome; exec; cbn [rev app];
    intros Hrun; try discriminate Hrun;
    do 11 eexists; exists evs;
    (split; [exact Hargv|]); (split; [exact Hscan|]);
    (split; [cbn [app]; match_trace|]);
    bool_hyps; repeat split; assumption.
  Unshelve. all: exact (mkResponse 0 0 []).
Qed.

Lemma setup_sequence_witness :
  exists v wr evs pre,
    sscanf_d "7" = (1, Some v) /\
    trace (run detach_fails_env 2 argv_7) =
      pre ++ ECall (libusb_wrap_sys_device v) wr :: evs.
Proof.
  destruct (setup_sequence detach_fails_env 2 argv_7 eq_refl)
    as (prog & arg & rest & v & so & ini & wr & a0 & d0 & c0 & a1 & d1 &
        c1 & ls & le & evs & Hargv & Hscan & Htr & _).
  inversion Hargv; subst prog arg rest.
  exists v, wr. eexists. eexists. split; [exact Hscan|].
  rewrite Htr. cbn [app].
  change (?a :: ?b :: ECall (libusb_wrap_sys_device v) wr :: ?t)
    with ([a; b] ++ ECall (libusb_wrap_sys_device v) wr :: t).
  reflexivity.
Defined.

(** ** Leaving through [out:] *)

(** X6: when [main] returns, it returns a negative code; [libusb_wrap_sys_device]
    was called; the last thing the run did is its one call of [libusb_exit];
    the handle was closed once if wrapping had succeeded, and not at all if
    wrapping had failed and [devh] was still null. *)
Theorem cleanup_on_return :
  forall env fuel argv code,
    outcome (run env fuel argv) = Normal code ->
    code < 0 /\
    (exists x,
       last_event (trace (run env fuel argv)) = Some (ECall libusb_exit x)) /\
    List.length (filter is_libusb_exit (trace (run env fuel argv))) = 1%nat /\
    exists w r,
      In (ECall (libusb_wrap_sys_device w) r) (trace (run env fuel argv)) /\
      List.length (filter is_close (trace (run env fuel argv))) =
        (if ret r <? 0 then 0%nat else 1%nat).
Proof.
  intros env fuel argv.
  run_cases env fuel argv;
    intros Hnil code Hout; try discriminate Hout;
    rewrite (Hnil ltac:(discriminate)); clear Hnil;
    inversion Hout; subst code; clear Hout;
    cbn [last_event rev app hd_error filter is_libusb_exit is_close
         List.length];
    (split; [bool_hyps; lia|]);
    (split; [eexists; reflexivity|]);
    (split; [reflexivity|]);
    eexists _, _;
    (split; [cbn [In]; do 2 right; left; reflexivity|]);
    use_conditions; try reflexivity;
    exfalso; bool_hyps; lia.
Qed.

Lemma cleanup_on_return_witness :
  exists x,
    last_event (trace (run (failing_env is_line_encoding (-9)) 3 argv_7)) =
      Some (ECall libusb_exit x).
Proof.
  destruct (cleanup_on_return (failing_env is_line_encoding (-9)) 3 argv_7
              (-9) eq_refl) as (_ & H & _).
  exact H.
Defined.

(** ** What a failed set-up prints *)

(** X7: when a call whose result [main] tests fails, the run prints one line on
    the standard error, made of the text for that call and the name the
    library gives to the code returned, and nothing on the standard
    output. *)
Theorem setup_failure_is_reported :
  forall env fuel argv c r,
    In (ECall c r) (trace (run env fuel argv)) ->
    ret r < 0 ->
    is_checked c = true ->
    filter is_stderr (trace (run env fuel argv)) =
      [EStderr (failure_prefix c ++ libusb_error_name env (ret r) ++ nl)] /\
    filter is_stdout (trace (run env fuel argv)) = [].
Proof.
  intros env fuel argv.
  run_cases env fuel argv;
    intros Hnil c x Hin Hneg Hchecked; bool_hyps;
    try (rewrite (Hnil ltac:(discriminate)) in * ); clear Hnil;
    in_cases Hin;
    try (inversion Hin; subst; clear Hin);
    try lia;
    try discriminate Hchecked;
    try (destruct (loop_event_call _ _ _ Hloop Hin) as (e & d & l & t & ->);
         discriminate Hchecked);
    split; reflexivity.
Qed.

Lemma setup_failure_is_reported_witness :
  filter is_stderr (trace (run (failing_env is_init (-11)) 3 argv_7)) =
    [EStderr ("Error initializing libusb: " ++ no_name (-11) ++ nl)].
Proof.
  assert (Hin : In (ECall libusb_init (mkResponse (-11) 0 []))
                   (trace (run (failing_env is_init (-11)) 3 argv_7))).
  { vm_compute. right. left. reflexivity. }
  destruct (setup_failure_is_reported _ _ _ _ _ Hin ltac:(cbn; lia) eq_refl)
    as (H & _).
  exact H.
Defined.

(** ** The receive buffer *)

(** One round of the loop in full: the events it logs, with the line it
    prints, and the buffer it leaves. *)
Lemma loop_body_full (env : environment) (s : state) :
  exists (w r : response) (wlog rlog : list event) (index : Z) (s' : state),
    loop_body env s = (Normal tt, s') /\
    wlog = (if ret w <? 0
            then [EStderr ("Error while sending char" ++ nl)] else []) /\
    rlog = (if ret r =? LIBUSB_ERROR_TIMEOUT
            then [EStdout ("timeout (" ++ string_of_Z (transferred r) ++
                           ")" ++ nl)]
            else if ret r <? 0
                 then [EStderr ("Error while waiting for char" ++ nl)]
                 else []) /\
    index = (if ret r =? LIBUSB_ERROR_TIMEOUT then -1
             else if ret r <? 0 then -1 else transferred r) /\
    rev (log s') =
      rev (log s) ++ ECall write_call w :: wlog ++ ECall read_call r ::
      rlog ++
      [EStore index;
       EStdout ("Received: " ++ dquote ++ c_string (buf s') ++ dquote ++ nl);
       ESleep 1] /\
    buf s' =
      (if ((0 <=? index) && (index <? sizeof_buf))%bool
       then list_set (overwrite (buf s) (firstn (Z.to_nat 64) (payload r)))
              (Z.to_nat index) 0
       else overwrite (buf s) (firstn (Z.to_nat 64) (payload r))).
Proof.
  destruct s as [d f c b l lg].
  unfold loop_body, write_char, read_chars, store_buf, bulk_transfer.
  change (Z.testbit ep_out_addr 7) with false.
  change (Z.testbit ep_in_addr 7) with true.
  exec.
  set (w := respond env lg (libusb_bulk_transfer ep_out_addr [116] 1 0)).
  exists w.
  destruct (ret w <? 0) eqn:Hw; exec;
    match goal with
    | |- context [respond env ?h (libusb_bulk_transfer ep_in_addr [] 64 1000)] =>
        set (r := respond env h (libusb_bulk_transfer ep_in_addr [] 64 1000))
    end;
    exists r;
    destruct (ret r =? LIBUSB_ERROR_TIMEOUT) eqn:Ht; exec;
    repeat (split_if; exec);
    do 4 eexists;
    (split; [reflexivity|]);
    (split; [reflexivity|]);
    (split; [reflexivity|]);
    (split; [reflexivity|]);
    exec; use_conditions;
    (split; [cbn [rev app]; rewrite <- !app_assoc; reflexivity
            |reflexivity]).
Qed.

(** With one more unit of fuel, a run in the loop ends in the state that one
    more round leads to. *)
Lemma run_succ_state (env : environment) (argv : list string) (fuel : nat) :
  outcome (run env fuel argv) = Running ->
  exists s',
    loop_body env (snd (run env fuel argv)) = (Normal tt, s') /\
    run env (S fuel) argv = (Running, s').
Proof.
  intros Hrun.
  rewrite run_outcome_fuel in Hrun.
  pose proof (run_fuel env argv fuel) as Hn.
  pose proof (run_fuel env argv (S fuel)) as HS.
  destruct (run env 0 argv) as [[a| | | |] s9]; try discriminate Hrun.
  destruct (transfer_loop_running env fuel s9) as (sn & Hsn).
  destruct (loop_body_log env sn)
    as (w & r & wl & rl & i & t & s1 & Hb & _).
  rewrite (transfer_loop_succ env fuel s9 sn s1 Hsn Hb) in HS.
  rewrite Hsn in Hn. rewrite Hn, HS. cbn [snd].
  exists s1. split; [exact Hb | reflexivity].
Qed.

Lemma run_stopped (env : environment) (argv : list string) (fuel : nat) :
  outcome (run env fuel argv) <> Running ->
  run env (S fuel) argv = run env fuel argv.
Proof.
  intros Hrun.
  rewrite run_outcome_fuel in Hrun.
  pose proof (run_fuel env argv fuel) as Hn.
  pose proof (run_fuel env argv (S fuel)) as HS.
  destruct (run env 0 argv) as [[a| | | |] s9];
    try (rewrite Hn, HS; reflexivity).
  exfalso. apply Hrun. reflexivity.
Qed.

Lemma list_set_length (a : list Z) (i : nat) (v : Z) :
  List.length (list_set a i v) = List.length a.
Proof.
  revert i. induction a as [|x a IH]; intros i; [reflexivity|].
  destruct i; cbn [list_set List.length]; [reflexivity|].
  rewrite IH. reflexivity.
Qed.

Lemma loop_body_buf_length (env : environment) (s s' : state) :
  List.length (buf s) = 65%nat ->
  loop_body env s = (Normal tt, s') ->
  List.length (buf s') = 65%nat.
Proof.
  intros Hlen Hrun.
  destruct (loop_body_full env s)
    as (w & r & wlog & rlog & index & s1 & Hb & _ & _ & _ & _ & Hbuf).
  rewrite Hb in Hrun. inversion Hrun; subst s1.
  assert (Hover : List.length
                    (overwrite (buf s) (firstn (Z.to_nat 64) (payload r)))
                  = 65%nat).
  { rewrite overwrite_length; [exact Hlen|].
    rewrite length_firstn, Hlen.
    change (Z.to_nat 64) with 64%nat. lia. }
  rewrite Hbuf.
  destruct ((0 <=? index) && (index <? sizeof_buf))%bool;
    [rewrite list_set_length|]; exact Hover.
Qed.

Lemma run_buf_length (env : environment) (argv : list string) (fuel : nat) :
  List.length (stack_buf env) = 65%nat ->
  List.length (buf (snd (run env fuel argv))) = 65%nat.
Proof.
  intros Hlen.
  induction fuel as [|fuel IH].
  - revert Hlen. run_cases_0 env argv; intros Hlen; exact Hlen.
  - destruct (outcome (run env fuel argv)) as [a| | | |] eqn:Hout;
      try (rewrite run_stopped by (rewrite Hout; discriminate); exact IH).
    destruct (run_succ_state env argv fuel Hout) as (s' & Hb & HS).
    rewrite HS. cbn [snd].
    exact (loop_body_buf_length env _ s' IH Hb).
Qed.

(** X8: the array [buf] keeps its 65 bytes all along: a read asks for at most
    64 bytes, so that whatever the device sends, and however long the loop
    runs, no read goes past the array. *)
Theorem buf_keeps_its_size :
  forall env fuel argv,
    List.length (stack_buf env) = 65%nat ->
    List.length (buf (snd (run env fuel argv))) = 65%nat.
Proof.
  intros env fuel argv Hlen. apply run_buf_length. exact Hlen.
Qed.

Lemma buf_keeps_its_size_witness :
  List.length (buf (snd (run hello_env 3 argv_7))) = 65%nat.
Proof. exact (buf_keeps_its_size hello_env 3 argv_7 eq_refl). Defined.

Lemma c_string_until_zero (bytes rest : list Z) :
  c_string (bytes ++ 0 :: rest) = c_string bytes.
Proof.
  induction bytes as [|b bytes IH]; [reflexivity|].
  cbn [app c_string]. destruct (b =? 0); [reflexivity|].
  rewrite IH. reflexivity.
Qed.

Lemma list_set_after (p : list Z) (x v : Z) (t : list Z) :
  list_set (p ++ x :: t) (List.length p) v = p ++ v :: t.
Proof.
  induction p as [|y p IH]; [reflexivity|].
  cbn [app List.length list_set]. rewrite IH. reflexivity.
Qed.

(** X9: when the read succeeds, the library reporting the number of bytes the
    device sent, at most 64, the store that ends the string is inside the
    array, at the index after the last byte received, and the line printed
    holds the bytes received up to their first zero byte, and nothing of
    what the array held before. *)
Theorem received_bytes_are_printed :
  forall env fuel argv,
    List.length (stack_buf env) = 65%nat ->
    outcome (run env fuel argv) = Running ->
    exists w wlog r rlog index text,
      trace (run env (S fuel) argv) =
        trace (run env fuel argv) ++ ECall write_call w :: wlog ++
        ECall read_call r :: rlog ++
        [EStore index; EStdout text; ESleep 1] /\
      (0 <= ret r ->
       transferred r = Z.of_nat (List.length (payload r)) ->
       (List.length (payload r) <= 64)%nat ->
       index = transferred r /\ 0 <= index <= 64 /\
       text = ("Received: " ++ dquote ++ c_string (payload r) ++ dquote ++
               nl)%string).
Proof.
  intros env fuel argv Hlen Hrun.
  pose proof (run_buf_length env argv fuel Hlen) as Hbuf0.
  destruct (run_succ_state env argv fuel Hrun) as (s' & Hb & HS).
  destruct (loop_body_full env (snd (run env fuel argv)))
    as (w & r & wlog & rlog & index & s1 & Hb1 & _ & _ & Hi & Hlog & Hbuf).
  rewrite Hb in Hb1. inversion Hb1; subst s1. clear Hb1.
  exists w, wlog, r, rlog, index.
  exists ("Received: " ++ dquote ++ c_string (buf s') ++ dquote ++ nl)%string.
  split.
  - rewrite HS. unfold trace. cbn [snd]. exact Hlog.
  - intros Hr Htransferred Hshort.
    assert (Hindex : index = transferred r).
    { rewrite Hi.
      destruct (ret r =? LIBUSB_ERROR_TIMEOUT) eqn:Ht;
        destruct (ret r <? 0) eqn:Hn; bool_hyps;
        unfold LIBUSB_ERROR_TIMEOUT in *; try reflexivity; lia. }
    assert (Hrange : 0 <= index <= 64) by lia.
    split; [exact Hindex|]. split; [exact Hrange|].
    rewrite Hbuf.
    replace ((0 <=? index) && (index <? sizeof_buf))%bool with true
      by (symmetry; apply andb_true_intro; unfold sizeof_buf;
          split; [apply Z.leb_le | apply Z.ltb_lt]; lia).
    rewrite firstn_all2 by (change (Z.to_nat 64) with 64%nat; exact Hshort).
    unfold overwrite.
    assert (Hnat : Z.to_nat index = List.length (payload r)) by lia.
    rewrite Hnat.
    destruct (skipn (List.length (payload r)) (buf (snd (run env fuel argv))))
      as [|x t] eqn:Hskip.
    + exfalso.
      assert (Hl : List.length
                     (skipn (List.length (payload r))
                        (buf (snd (run env fuel argv)))) = 0%nat)
        by (rewrite Hskip; reflexivity).
      rewrite length_skipn, Hbuf0 in Hl. lia.
    + rewrite list_set_after, c_string_until_zero. reflexivity.
Qed.

Lemma received_bytes_are_printed_witness :
  exists w wlog r rlog index,
    trace (run hello_env 1 argv_7) =
      trace (run hello_env 0 argv_7) ++ ECall write_call w :: wlog ++
      ECall read_call r :: rlog ++
      [EStore index; EStdout ("Received: " ++ dquote ++ "hello" ++ dquote ++ nl);
       ESleep 1] /\
    index = 5.
Proof.
  destruct (received_bytes_are_printed hello_env 0 argv_7 eq_refl eq_refl)
    as (w & wlog & r & rlog & index & text & Htr & Hread).
  assert (Hr : r = mkResponse 0 5 [104; 101; 108; 108; 111]).
  { remember (trace (run hello_env 1 argv_7)) as t1 eqn:E1.
    remember (trace (run hello_env 0 argv_7)) as t0 eqn:E0.
    vm_compute in E1. vm_compute in E0. subst t1 t0.
    cbn [app] in Htr. inversion Htr as [[Hw Htail]]. clear Htr.
    destruct wlog as [|e wlog]; cbn [app] in Htail.
    - inversion Htail. reflexivity.
    - exfalso. inversion Htail as [[He Hrest]].
      apply (f_equal (@List.length event)) in Hrest.
      rewrite !length_app in Hrest. cbn [List.length] in Hrest.
      rewrite length_app in Hrest. cbn [List.length] in Hrest. lia. }
  subst r.
  destruct (Hread ltac:(cbn; lia) eq_refl ltac:(cbn; lia))
    as (Hindex & _ & Htext).
  exists w, wlog, (mkResponse 0 5 [104; 101; 108; 108; 111]), rlog, index.
  split; [|exact Hindex].
  rewrite Htr, Htext. reflexivity.
Defined.

(** ** The descriptor *)



